(** * main.js: the animation loop and the scroll handler of the three.js scene

    The scene of [src/three_jsProject/src/main.js] keeps four transforms that
    its own code reads or writes after start-up: the camera position, the torus
    rotation, the moon rotation and the moon position.  Two functions mutate
    them: [animate], run once per display frame, and [moveCamera], run once per
    scroll event.  This development embeds both, together with the start-up
    statements that touch the same objects, and proves what they do.

    Numbers.  JavaScript numbers are IEEE 754 binary64 values.  The program
    is written once over an interface of number operations ([Number]) and
    read at two instances: [float] (Rocq's primitive binary64 floats, the
    arithmetic the program runs on) and [Q] (exact rationals, the arithmetic
    in which the decimal constants of the source mean what they say).

    The host.  The browser and three.js are outside the file.  Of
    [requestAnimationFrame] the model keeps the queue of pending callbacks;
    of [renderer.render] that it is called, and on which scene; of
    [controls.update()] that it advances the state of the controls and may
    move the camera they were constructed with, by a function the
    development is parametrised over.  Every call into the host is logged
    with the scene as it stands at the call, which makes the order of the
    statements of [animate] visible in its result. *)

From Stdlib Require Import ZArith QArith Qabs List Lia Lqa Bool.
From Stdlib Require Import Uint63 PrimFloat SpecFloat FloatOps.
Import ListNotations.

Set Implicit Arguments.

(** ** Numbers *)

(** The operations [main.js] applies to numbers: [+] (inside [+=]), [*], unary
    [-], and decimal literals.  A literal is given by its exact decimal value
    as a fraction: [0.01] is [lit (1 # 100)]. *)
Class Number (A : Type) : Type := {
  add : A -> A -> A;
  mul : A -> A -> A;
  neg : A -> A;
  lit : Q -> A
}.

(** Exact rational arithmetic. *)
#[export] Instance Number_Q : Number Q := {
  add := Qplus;
  mul := Qmult;
  neg := Qopp;
  lit := fun q => q
}.

Module Binary64.

(** An integer as a binary64 value; exact for magnitudes below [2^53]. *)
Definition of_Z (z : Z) : float :=
  match z with
  | Z0 => PrimFloat.zero
  | Zpos _ => PrimFloat.of_uint63 (Uint63.of_Z z)
  | Zneg p => PrimFloat.opp (PrimFloat.of_uint63 (Uint63.of_Z (Zpos p)))
  end.

(** A decimal literal denotes the binary64 value nearest to its decimal
    value.  Numerator and denominator of the literals of [main.js] are
    small integers, exactly representable, and binary64 division rounds
    the exact quotient to nearest, so the quotient below is that value. *)
Definition of_decimal (q : Q) : float :=
  PrimFloat.div (of_Z (Qnum q)) (of_Z (Zpos (Qden q))).

(** The exact rational value of a finite binary64 number. *)
Definition to_Q (f : float) : option Q :=
  match Prim2SF f with
  | S754_zero _ => Some 0%Q
  | S754_finite s m e =>
      let mag := match e with
                 | Z0 => Zpos m # 1
                 | Zpos k => Zpos (m * 2 ^ k) # 1
                 | Zneg k => Zpos m # (2 ^ k)
                 end in
      Some (if s then Qopp mag else mag)
  | S754_infinity _ | S754_nan => None
  end.

(** [f] is finite and within [eps] of the rational [q]. *)
Definition within (eps : Q) (f : float) (q : Q) : bool :=
  match to_Q f with
  | Some v => Qle_bool (Qabs (v - q)) eps
  | None => false
  end.




End Binary64.

(** Binary64 arithmetic, as JavaScript performs it. *)
#[export] Instance Number_float : Number float := {
  add := PrimFloat.add;
  mul := PrimFloat.mul;
  neg := PrimFloat.opp;
  lit := Binary64.of_decimal
}.

(** ** Objects of the scene *)

(** [THREE.Vector3], the type of [camera.position] and [moon.position]. *)
Module Vector3.
Record t (A : Type) : Type := make { x : A; y : A; z : A }.
Arguments make {A} _ _ _.
Arguments x {A} _.
Arguments y {A} _.
Arguments z {A} _.

Section Methods.
Context {A : Type}.
(** [v.setX(a)], [v.setZ(a)]: the prototype's methods. *)
Definition setX (v : t A) (a : A) : t A := make a (y v) (z v).
Definition setZ (v : t A) (a : A) : t A := make (x v) (y v) a.
(** [v.y = a]. *)
Definition set_y (v : t A) (a : A) : t A := make (x v) a (z v).
End Methods.
End Vector3.

(** [THREE.Euler], the type of [torus.rotation] and [moon.rotation]: three
    angles in radians.  Writing an angle stores the number as it is. *)
Module Euler.
Record t (A : Type) : Type := make { x : A; y : A; z : A }.
Arguments make {A} _ _ _.
Arguments x {A} _.
Arguments y {A} _.
Arguments z {A} _.

Section Methods.
Context {A : Type}.
Definition set_x (r : t A) (a : A) : t A := make a (y r) (z r).
Definition set_y (r : t A) (a : A) : t A := make (x r) a (z r).
Definition set_z (r : t A) (a : A) : t A := make (x r) (y r) a.
End Methods.
End Euler.

(** The function handed to [requestAnimationFrame]; [animate] is the only
    one in [main.js]. *)
Inductive callback : Type := Animate.

(** What a call into the host sees of the scene: the camera and the
    transforms of the two meshes the script moves. *)
Record view (A : Type) : Type := View {
  view_camera : Vector3.t A;
  view_torus_rotation : Euler.t A;
  view_moon_rotation : Euler.t A;
  view_moon_position : Vector3.t A
}.
Arguments View {A} _ _ _ _.

(** The calls [animate] makes into the browser and into three.js, each with
    the scene as it stands when the call is made. *)
Inductive host_call (A : Type) : Type :=
| RequestAnimationFrame (cb : callback) (v : view A)
| ControlsUpdate (v : view A)
| Render (v : view A).
Arguments RequestAnimationFrame {A} _ _.
Arguments ControlsUpdate {A} _.
Arguments Render {A} _.

(** The module-level state of [main.js].  [C] is the internal state of the
    [OrbitControls] object. *)
Record world (A C : Type) : Type := World {
  camera_position : Vector3.t A;
  torus_rotation : Euler.t A;
  moon_rotation : Euler.t A;
  moon_position : Vector3.t A;
  (** the own property [setZ] of the object [moon.position]; [None] while
      the object has none and [setZ] resolves to the prototype's method *)
  moon_position_setZ : option A;
  controls : C;
  (** callbacks waiting for the next repaint *)
  frame_requests : list callback;
  (** calls made into the host so far, oldest first *)
  calls : list (host_call A)
}.
Arguments World {A C} _ _ _ _ _ _ _ _.
Arguments camera_position {A C} _.
Arguments torus_rotation {A C} _.
Arguments moon_rotation {A C} _.
Arguments moon_position {A C} _.
Arguments moon_position_setZ {A C} _.
Arguments controls {A C} _.
Arguments frame_requests {A C} _.
Arguments calls {A C} _.

(** How a JavaScript function call ends. *)
Inductive outcome (X : Type) : Type :=
| Returned (v : X)
| Thrown.
Arguments Returned {X} _.
Arguments Thrown {X}.

(** The statements of [animate] after the first, where a fault can be
    injected. *)
Inductive point : Type :=
| AtTorusX | AtTorusY | AtTorusZ | AtControlsUpdate | AtRender.

Definition no_faults : point -> bool := fun _ => false.

(** A scroll event carries the value [document.body.getBoundingClientRect().top]
    has when the handler runs. *)
Inductive event (A : Type) : Type :=
| Frame
| Scroll (top : A).
Arguments Frame {A}.
Arguments Scroll {A} _.

Definition is_frame {A} (e : event A) : bool :=
  match e with Frame => true | Scroll _ => false end.

Definition is_scroll {A} (e : event A) : bool :=
  match e with Frame => false | Scroll _ => true end.

(** ** The program *)

Section Program.

Context {A : Type} `{Number A}.
(** [OrbitControls]: its state, and what [controls.update()] does to that
    state and to the position of the camera it was constructed with. *)
Context {C : Type}.
Variable controls_update : C -> Vector3.t A -> C * Vector3.t A.

Abbreviation world := (world A C).

(** Statements run in a world and either return or throw; what was
    written before a throw stays written. *)
Definition M (X : Type) : Type := world -> world * outcome X.

Definition ret {X} (v : X) : M X := fun w => (w, Returned v).

Definition bind {X Y} (m : M X) (k : X -> M Y) : M Y :=
  fun w =>
    match m w with
    | (w', Returned v) => k v w'
    | (w', Thrown) => (w', Thrown)
    end.

Definition throw {X} : M X := fun w => (w, Thrown).

Definition modify (f : world -> world) : M unit := fun w => (f w, Returned tt).

Notation "m1 ;; m2" := (bind m1 (fun _ => m2))
  (at level 61, right associativity).

(** The world a call leaves behind, however it ends. *)
Definition exec {X} (m : M X) (w : world) : world := fst (m w).

Definition scene (w : world) : view A :=
  View (camera_position w) (torus_rotation w) (moon_rotation w) (moon_position w).

(** *** Field updates *)

Definition with_camera_position (p : Vector3.t A) (w : world) : world :=
  World p (torus_rotation w) (moon_rotation w) (moon_position w)
    (moon_position_setZ w) (controls w) (frame_requests w) (calls w).

Definition with_torus_rotation (r : Euler.t A) (w : world) : world :=
  World (camera_position w) r (moon_rotation w) (moon_position w)
    (moon_position_setZ w) (controls w) (frame_requests w) (calls w).

Definition with_moon_rotation (r : Euler.t A) (w : world) : world :=
  World (camera_position w) (torus_rotation w) r (moon_position w)
    (moon_position_setZ w) (controls w) (frame_requests w) (calls w).

Definition with_moon_position (p : Vector3.t A) (w : world) : world :=
  World (camera_position w) (torus_rotation w) (moon_rotation w) p
    (moon_position_setZ w) (controls w) (frame_requests w) (calls w).

Definition with_moon_position_setZ (s : option A) (w : world) : world :=
  World (camera_position w) (torus_rotation w) (moon_rotation w)
    (moon_position w) s (controls w) (frame_requests w) (calls w).

Definition with_controls (c : C) (w : world) : world :=
  World (camera_position w) (torus_rotation w) (moon_rotation w)
    (moon_position w) (moon_position_setZ w) c (frame_requests w) (calls w).

Definition with_frame_requests (q : list callback) (w : world) : world :=
  World (camera_position w) (torus_rotation w) (moon_rotation w)
    (moon_position w) (moon_position_setZ w) (controls w) q (calls w).

Definition with_calls (l : list (host_call A)) (w : world) : world :=
  World (camera_position w) (torus_rotation w) (moon_rotation w)
    (moon_position w) (moon_position_setZ w) (controls w)
    (frame_requests w) l.

Definition log (c : host_call A) (w : world) : world :=
  with_calls (calls w ++ [c]) w.

(** *** Host calls *)

(** [requestAnimationFrame(cb)]: queues [cb] for the next repaint. *)
Definition requestAnimationFrame (cb : callback) : M unit :=
  modify (fun w =>
    with_frame_requests (frame_requests w ++ [cb])
      (log (RequestAnimationFrame cb (scene w)) w)).

(** [controls.update()]: the controls advance and may move the camera. *)
Definition controls_update_call : M unit :=
  modify (fun w =>
    let (c, p) := controls_update (controls w) (camera_position w) in
    with_controls c (with_camera_position p (log (ControlsUpdate (scene w)) w))).

(** [renderer.render(scene, camera)]: draws; the transforms stay as they
    are. *)
Definition renderer_render : M unit :=
  modify (fun w => log (Render (scene w)) w).

(** *** Assignments *)

(** [torus.rotation.x += d] and its siblings. *)
Definition torus_rotation_x_add (d : A) : M unit :=
  modify (fun w =>
    let r := torus_rotation w in
    with_torus_rotation (Euler.set_x r (add (Euler.x r) d)) w).

Definition torus_rotation_y_add (d : A) : M unit :=
  modify (fun w =>
    let r := torus_rotation w in
    with_torus_rotation (Euler.set_y r (add (Euler.y r) d)) w).

Definition torus_rotation_z_add (d : A) : M unit :=
  modify (fun w =>
    let r := torus_rotation w in
    with_torus_rotation (Euler.set_z r (add (Euler.z r) d)) w).

(** [moon.rotation.x += d] and its siblings. *)
Definition moon_rotation_x_add (d : A) : M unit :=
  modify (fun w =>
    let r := moon_rotation w in
    with_moon_rotation (Euler.set_x r (add (Euler.x r) d)) w).

Definition moon_rotation_y_add (d : A) : M unit :=
  modify (fun w =>
    let r := moon_rotation w in
    with_moon_rotation (Euler.set_y r (add (Euler.y r) d)) w).

Definition moon_rotation_z_add (d : A) : M unit :=
  modify (fun w =>
    let r := moon_rotation w in
    with_moon_rotation (Euler.set_z r (add (Euler.z r) d)) w).

(** [camera.position.y = a]. *)
Definition camera_position_y_assign (a : A) : M unit :=
  modify (fun w =>
    with_camera_position (Vector3.set_y (camera_position w) a) w).

(** [camera.position.setZ(a)]: nothing shadows the method on this object. *)
Definition camera_position_setZ_call (a : A) : M unit :=
  modify (fun w =>
    with_camera_position (Vector3.setZ (camera_position w) a) w).

(** [moon.position.setZ = (a)]: an assignment to the property [setZ] of the
    object.  It creates an own property holding the number [a]; no
    coordinate is written. *)
Definition moon_position_setZ_assign (a : A) : M unit :=
  modify (with_moon_position_setZ (Some a)).

(** [moon.position.setX(a)]. *)
Definition moon_position_setX_call (a : A) : M unit :=
  modify (fun w =>
    with_moon_position (Vector3.setX (moon_position w) a) w).

(** [moon.position.setZ(a)], wherever it would be called: the method runs
    unless an own property shadows it, and then the call is a TypeError
    (a number is not a function).  [main.js] never makes this call. *)
Definition moon_position_setZ_call (a : A) : M unit :=
  fun w =>
    match moon_position_setZ w with
    | None => (with_moon_position (Vector3.setZ (moon_position w) a) w, Returned tt)
    | Some _ => (w, Thrown)
    end.

(** *** moveCamera (lines 129-141) *)

Definition moveCamera (top : A) : M unit :=
  let t := top in
  moon_rotation_x_add (lit (5 # 100)) ;;
  moon_rotation_y_add (lit (75 # 1000)) ;;
  moon_rotation_z_add (lit (5 # 100)) ;;
  camera_position_y_assign (mul t (neg (lit (2 # 10000)))).

(** *** animate (lines 147-167) *)

Section Faults.

(** Fault injection: [throws p] makes the statement at [p] throw
    instead of running. *)
Variable throws : point -> bool.

Definition at_ (p : point) (m : M unit) : M unit :=
  if throws p then throw else m.

Definition animate : M unit :=
  requestAnimationFrame Animate ;;
  at_ AtTorusX (torus_rotation_x_add (lit (1 # 100))) ;;
  at_ AtTorusY (torus_rotation_y_add (lit (1 # 100))) ;;
  at_ AtTorusZ (torus_rotation_z_add (lit (1 # 100))) ;;
  at_ AtControlsUpdate controls_update_call ;;
  at_ AtRender renderer_render.

End Faults.

(** *** Start-up *)

(** The objects as three.js constructs them: every [Object3D] starts at
    position [(0, 0, 0)] with rotation [(0, 0, 0)]; nothing is queued and
    nothing has been called. *)
Definition constructed (c0 : C) : world :=
  let o := lit 0 in
  World (Vector3.make o o o) (Euler.make o o o) (Euler.make o o o)
    (Vector3.make o o o) None c0 [] [].

(** The top-level statements that write the transforms above (lines 16,
    123 and 124) and the first call of [animate] (line 170). *)
Definition startup : M unit :=
  camera_position_setZ_call (lit 30) ;;
  moon_position_setZ_assign (lit 30) ;;
  moon_position_setX_call (lit 2) ;;
  animate no_faults.

(** *** Runs *)

(** The host runs one callback to completion per event; a throw ends that
    callback only. *)
Definition dispatch (e : event A) : M unit :=
  match e with
  | Frame => animate no_faults
  | Scroll top => moveCamera top
  end.

Definition run (es : list (event A)) (w : world) : world :=
  fold_left (fun w e => exec (dispatch e) w) es w.

(** The camera's [y] after each event of a run, in order. *)
Fixpoint camera_y_trace (es : list (event A)) (w : world) : list A :=
  match es with
  | [] => []
  | e :: es' =>
      let w' := exec (dispatch e) w in
      Vector3.y (camera_position w') :: camera_y_trace es' w'
  end.

(** One repaint: the browser takes the callbacks queued so far and runs
    each of them. *)
Definition repaint (w : world) : world :=
  fold_left (fun w cb => match cb with Animate => exec (animate no_faults) w end)
    (frame_requests w) (with_frame_requests [] w).

(** *** What one call adds *)

(** A rotation after the three [+=] of [animate], and after the three of
    [moveCamera]. *)
Definition torus_bump (r : Euler.t A) : Euler.t A :=
  Euler.make (add (Euler.x r) (lit (1 # 100)))
             (add (Euler.y r) (lit (1 # 100)))
             (add (Euler.z r) (lit (1 # 100))).

Definition moon_bump (r : Euler.t A) : Euler.t A :=
  Euler.make (add (Euler.x r) (lit (5 # 100)))
             (add (Euler.y r) (lit (75 # 1000)))
             (add (Euler.z r) (lit (5 # 100))).


End Program.

(** ** The frame loop when statements throw *)

Section Loop.

Context {A : Type} `{Number A} {C : Type}.
Variable controls_update : C -> Vector3.t A -> C * Vector3.t A.



(** The statements of [animate] after the frame request, in source order. *)
Definition points : list point :=
  [AtTorusX; AtTorusY; AtTorusZ; AtControlsUpdate; AtRender].

(** How many of them run before the first one that throws. *)
Fixpoint reached (throws : point -> bool) (ps : list point) : nat :=
  match ps with
  | [] => 0
  | p :: ps' => if throws p then 0 else S (reached throws ps')
  end.


End Loop.

Definition is_render {A : Type} (c : host_call A) : bool :=
  match c with Render _ => true | _ => false end.

Definition is_request {A : Type} (c : host_call A) : bool :=
  match c with RequestAnimationFrame _ _ => true | _ => false end.

(** ** The whole script *)

(** JavaScript arrays as [main.js] uses them: a slot holds a value or is a
    hole.  [Array(n)] has [n] holes; [fill] puts a value in every slot;
    [forEach] and [map] call their callback on the slots that hold a value,
    in index order, and skip the holes. *)
Module JsArray.

Definition t (X : Type) : Type := list (option X).

(** [Array(n)]. *)
Definition create (n : nat) : t unit := repeat None n.

(** [a.fill(v)]; [a.fill()] is [fill a tt], every slot [undefined]. *)
Definition fill {X Y : Type} (a : t X) (v : Y) : t Y := map (fun _ => Some v) a.

Section Callbacks.

Context {St X Y : Type}.

(** [a.forEach(f)], from index [i] on.  A callback that throws ends the
    loop. *)
Fixpoint forEach_from (i : nat) (a : t X)
    (f : X -> nat -> St -> St * outcome unit) (s : St) : St * outcome unit :=
  match a with
  | [] => (s, Returned tt)
  | None :: a' => forEach_from (S i) a' f s
  | Some v :: a' =>
      match f v i s with
      | (s', Returned _) => forEach_from (S i) a' f s'
      | (s', Thrown) => (s', Thrown)
      end
  end.

Definition forEach (a : t X) (f : X -> nat -> St -> St * outcome unit) :
    St -> St * outcome unit :=
  forEach_from 0 a f.

(** [a.map(f)], from index [i] on: holes stay holes. *)
Fixpoint map_from (i : nat) (a : t X)
    (f : X -> nat -> St -> St * outcome Y) (s : St) : St * outcome (t Y) :=
  match a with
  | [] => (s, Returned [])
  | None :: a' =>
      match map_from (S i) a' f s with
      | (s', Returned r) => (s', Returned (None :: r))
      | (s', Thrown) => (s', Thrown)
      end
  | Some v :: a' =>
      match f v i s with
      | (s', Returned y) =>
          match map_from (S i) a' f s' with
          | (s'', Returned r) => (s'', Returned (Some y :: r))
          | (s'', Thrown) => (s'', Thrown)
          end
      | (s', Thrown) => (s', Thrown)
      end
  end.

Definition map_ (a : t X) (f : X -> nat -> St -> St * outcome Y) :
    St -> St * outcome (t Y) :=
  map_from 0 a f.

End Callbacks.

End JsArray.

(** The function assigned to [document.body.onscroll]. *)
Inductive handler : Type := MoveCamera.

(** What [main.js] adds to the scene.  The transforms of the torus and of
    the moon live in the [world]; a light and a star carry the position the
    script gives them once. *)
Inductive object (A : Type) : Type :=
| Torus
| PointLight (position : Vector3.t A)
| AmbientLight
| LightHelper
| GridHelper
| Star (position : Vector3.t A)
| Moon.
Arguments Torus {A}.
Arguments PointLight {A} _.
Arguments AmbientLight {A}.
Arguments LightHelper {A}.
Arguments GridHelper {A}.
Arguments Star {A} _.
Arguments Moon {A}.


(** The state the whole script works on: the [world] of the two handlers,
    the children of the scene in the order they were added, the number of
    calls of [THREE.MathUtils.randFloatSpread] made so far, and
    [document.body.onscroll]. *)
Record page (A C : Type) : Type := Page {
  core : world A C;
  children : list (object A);
  random_calls : nat;
  onscroll : option handler
}.
Arguments Page {A C} _ _ _ _.
Arguments core {A C} _.
Arguments children {A C} _.
Arguments random_calls {A C} _.
Arguments onscroll {A C} _.

Section Script.

Context {A : Type} `{Number A} {C : Type}.
Variable controls_update : C -> Vector3.t A -> C * Vector3.t A.
(** [THREE.MathUtils.randFloatSpread]: what its [k]-th call returns for a
    given range. *)
Variable randFloatSpread : A -> nat -> A.

Abbreviation page := (page A C).

Definition PM (X : Type) : Type := page -> page * outcome X.

Definition pbind {X Y} (m : PM X) (k : X -> PM Y) : PM Y :=
  fun pg =>
    match m pg with
    | (pg', Returned v) => k v pg'
    | (pg', Thrown) => (pg', Thrown)
    end.

Notation "m1 ;; m2" := (pbind m1 (fun _ => m2))
  (at level 61, right associativity).



(** [scene.add(o1, o2, ...)] with objects that have no parent yet: they
    become the last children, in argument order. *)
Definition scene_add (os : list (object A)) : PM unit :=
  fun pg =>
    (Page (core pg) (children pg ++ os) (random_calls pg) (onscroll pg),
     Returned tt).

(** [THREE.MathUtils.randFloatSpread(range)]. *)
Definition randFloatSpread_call (range : A) : PM A :=
  fun pg =>
    (Page (core pg) (children pg) (S (random_calls pg)) (onscroll pg),
     Returned (randFloatSpread range (random_calls pg))).



(** *** addStar (lines 89-99) *)

(** A white sphere of radius [0.25] is made; then
    [const [x, y, z] = Array(3).fill().map(() => randFloatSpread(200))],
    [star.position.set(x, y, z)] and [scene.add(star)].  The pattern
    takes the first three slots; [map] over three filled slots returns three
    numbers, so the last case, slots without a number, is never met
    ([addStar_returns] below). *)
Definition addStar : PM unit :=
  pbind
    (JsArray.map_ (JsArray.fill (JsArray.create 3) tt)
       (fun _ _ => randFloatSpread_call (lit 200)))
    (fun coordinates =>
       match coordinates with
       | Some x :: Some y :: Some z :: _ =>
           scene_add [Star (Vector3.make x y z)]
       | _ => fun pg => (pg, Thrown)
       end).

(** [Array(n).fill().forEach(addStar)]; the script has [n = 200].
    [forEach] passes the slot's value and its index; [addStar] takes no
    argument and ignores both. *)
Definition add_stars (n : nat) : PM unit :=
  JsArray.forEach (JsArray.fill (JsArray.create n) tt) (fun _ _ => addStar).

(** *** The top level of main.js, in source order *)






(** The star the [i]-th call of [addStar] adds when [d] calls of
    [randFloatSpread] came before the loop. *)
Definition star_at (d i : nat) : object A :=
  Star (Vector3.make (randFloatSpread (lit 200) (d + 3 * i))
                     (randFloatSpread (lit 200) (d + 3 * i + 1))
                     (randFloatSpread (lit 200) (d + 3 * i + 2))).

End Script.

(** ** Concrete hosts used in examples *)

(** Controls that find no pending input and leave the camera where it is. *)
Definition still {A : Type} (c : unit) (p : Vector3.t A) : unit * Vector3.t A :=
  (c, p).



(** The scroll offsets [0, -100, -250]. *)
Definition scenario_offsets {A : Type} `{Number A} : list A :=
  [lit 0; neg (lit 100); neg (lit 250)].

(** ** Proof automation *)

(** Runs a call of [animate] symbolically: one case per fault plan. *)
Ltac run_animate cu throws w :=
  unfold exec, animate, at_, bind, throw, requestAnimationFrame,
    torus_rotation_x_add, torus_rotation_y_add, torus_rotation_z_add,
    controls_update_call, renderer_render, modify, log; simpl;
  destruct (throws AtTorusX), (throws AtTorusY), (throws AtTorusZ),
    (throws AtControlsUpdate), (throws AtRender); simpl;
  try destruct (cu (controls w) (camera_position w));
  simpl.

(** Runs the start-up statements up to the first call of [animate]. *)
Ltac run_startup :=
  unfold exec, startup, bind, camera_position_setZ_call,
    moon_position_setZ_assign, moon_position_setX_call, modify;
  cbv beta iota zeta.

(** * Properties *)

(** ** The constants of the source in binary64 *)

Example lit_0_01 : lit (A := float) (1 # 100) = 0x1.47ae147ae147bp-7%float.
Proof. reflexivity. Qed.

Example lit_0_05 : lit (A := float) (5 # 100) = 0x1.999999999999ap-5%float.
Proof. reflexivity. Qed.

Example lit_0_075 : lit (A := float) (75 # 1000) = 0x1.3333333333333p-4%float.
Proof. reflexivity. Qed.

Example lit_0_0002 : lit (A := float) (2 # 10000) = 0x1.a36e2eb1c432dp-13%float.
Proof. reflexivity. Qed.

(** The exact value of the binary64 [0.01]: a little above one hundredth. *)
Example to_Q_0_01 :
  Binary64.to_Q (lit (1 # 100)) = Some (5764607523034235 # 576460752303423488).
Proof. vm_compute. reflexivity. Qed.

(** ** One call *)

Section Calls.

Context {A : Type} `{Number A} {C : Type}.
Variable controls_update : C -> Vector3.t A -> C * Vector3.t A.

Abbreviation animate' := (animate controls_update).

(** A call of [animate] in which nothing throws, in full. *)
Lemma animate_no_faults (w : world A C) :
  animate' no_faults w =
    (let r' := torus_bump (torus_rotation w) in
     let cp := controls_update (controls w) (camera_position w) in
     World (snd cp) r' (moon_rotation w) (moon_position w)
       (moon_position_setZ w) (fst cp) (frame_requests w ++ [Animate])
       (calls w ++
          [RequestAnimationFrame Animate (scene w);
           ControlsUpdate (View (camera_position w) r' (moon_rotation w) (moon_position w));
           Render (View (snd cp) r' (moon_rotation w) (moon_position w))]),
     Returned tt).
Proof.
  unfold animate, at_, no_faults, bind, requestAnimationFrame,
    torus_rotation_x_add, torus_rotation_y_add, torus_rotation_z_add,
    controls_update_call, renderer_render, modify, log, scene; simpl.
  destruct (controls_update (controls w) (camera_position w)) as [c p]; simpl.
  rewrite <- !app_assoc. reflexivity.
Qed.

(** A call of [moveCamera], in full. *)
Lemma moveCamera_world (top : A) (w : world A C) :
  moveCamera top w =
    (World (Vector3.set_y (camera_position w) (mul top (neg (lit (2 # 10000)))))
       (torus_rotation w) (moon_bump (moon_rotation w)) (moon_position w)
       (moon_position_setZ w) (controls w) (frame_requests w) (calls w),
     Returned tt).
Proof. reflexivity. Qed.

(** Whatever throws, a call of [animate] leaves the moon alone, and the
    camera either where it was or where the controls put it. *)
Lemma animate_moon (throws : point -> bool) (w : world A C) :
  moon_rotation (exec (animate' throws) w) = moon_rotation w /\
  moon_position (exec (animate' throws) w) = moon_position w /\
  moon_position_setZ (exec (animate' throws) w) = moon_position_setZ w.
Proof. run_animate controls_update throws w; auto. Qed.


(** The statements run in source order: a throw at [controls.update()]
    finds all three torus angles already turned and the camera untouched,
    and no render has been requested. *)
Lemma animate_throw_at_controls (w : world A C) :
  let throws p := match p with AtControlsUpdate => true | _ => false end in
  animate' throws w =
    (World (camera_position w) (torus_bump (torus_rotation w)) (moon_rotation w)
       (moon_position w) (moon_position_setZ w) (controls w)
       (frame_requests w ++ [Animate])
       (calls w ++ [RequestAnimationFrame Animate (scene w)]),
     Thrown).
Proof. reflexivity. Qed.

(** C2: in every call of [animate], whichever of the later statements
    throws (the torus increments, the controls update, the render), the
    request for the next frame has been made first: it is the first call the
    invocation makes into the host, it is made on the scene exactly as the
    invocation found it (nothing has been written yet), and [animate] is
    among the pending frame requests when the invocation ends. *)
Theorem animate_requests_next_frame_first (throws : point -> bool) (w : world A C) :
  let w' := exec (animate' throws) w in
  frame_requests w' = frame_requests w ++ [Animate] /\
  exists rest,
    calls w' = calls w ++ RequestAnimationFrame Animate (scene w) :: rest.
Proof.
  run_animate controls_update throws w; split; try reflexivity;
    rewrite <- ?app_assoc; simpl; eexists; reflexivity.
Qed.

(** C8: a call of [animate] in which nothing throws adds [0.01] to each of
    the three torus angles, then calls [controls.update()] once (the
    controls see the torus already turned and the camera not yet moved),
    then calls [renderer.render] once, on the scene with the camera the
    controls left; besides the frame request these are its only calls into
    the host, and it returns no value. *)
Theorem animate_steps_in_order (w : world A C) :
  let r := torus_rotation w in
  let r' := Euler.make (add (Euler.x r) (lit (1 # 100)))
                       (add (Euler.y r) (lit (1 # 100)))
                       (add (Euler.z r) (lit (1 # 100))) in
  let cp := controls_update (controls w) (camera_position w) in
  let w' := fst (animate' no_faults w) in
  snd (animate' no_faults w) = Returned tt /\
  torus_rotation w' = r' /\
  controls w' = fst cp /\
  camera_position w' = snd cp /\
  calls w' =
    calls w ++
      [RequestAnimationFrame Animate (scene w);
       ControlsUpdate (View (camera_position w) r' (moon_rotation w) (moon_position w));
       Render (View (snd cp) r' (moon_rotation w) (moon_position w))].
Proof.
  cbv zeta. rewrite animate_no_faults. cbn [fst snd].
  repeat split.
Qed.

(** Start-up leaves the moon at [(2, 0, 0)] with the number [30] stored in
    the property [setZ] of its position. *)
Lemma startup_moon (c0 : C) :
  let w := exec (startup controls_update) (constructed c0) in
  moon_position w = Vector3.make (lit 2) (lit 0) (lit 0) /\
  moon_position_setZ w = Some (lit 30).
Proof.
  run_startup. rewrite animate_no_faults. split; reflexivity.
Qed.


Lemma startup_requests (c0 : C) :
  frame_requests (exec (startup controls_update) (constructed c0)) = [Animate].
Proof.
  run_startup. rewrite animate_no_faults. reflexivity.
Qed.

(** After start-up a call [moon.position.setZ(a)] would throw: the
    property holds a number. *)
Lemma startup_shadows_setZ (c0 : C) (a : A) :
  let w := exec (startup controls_update) (constructed c0) in
  moon_position_setZ_call a w = (w, Thrown).
Proof.
  cbv zeta. unfold moon_position_setZ_call.
  rewrite (proj2 (startup_moon c0)). reflexivity.
Qed.

End Calls.

(** ** Runs *)

Section Runs.

Context {A : Type} `{Number A} {C : Type}.
Variable controls_update : C -> Vector3.t A -> C * Vector3.t A.

Abbreviation run' := (run controls_update).

Lemma run_app (es es' : list (event A)) (w : world A C) :
  run' (es ++ es') w = run' es' (run' es w).
Proof. apply fold_left_app. Qed.

Lemma run_cons (e : event A) (es : list (event A)) (w : world A C) :
  run' (e :: es) w = run' es (exec (dispatch controls_update e) w).
Proof. reflexivity. Qed.

Lemma exec_frame (w : world A C) :
  exec (dispatch controls_update Frame) w =
    fst (animate controls_update no_faults w).
Proof. reflexivity. Qed.

(** The torus turns once per frame and not at all per scroll event. *)
Lemma torus_rotation_run (es : list (event A)) (w : world A C) :
  torus_rotation (run' es w) =
    Nat.iter (length (filter is_frame es)) torus_bump (torus_rotation w).
Proof.
  revert w; induction es as [|e es IH]; intro w; [reflexivity|].
  rewrite run_cons, IH. destruct e as [|top]; simpl filter; simpl length.
  - rewrite Nat.iter_succ_r, exec_frame, animate_no_faults. reflexivity.
  - reflexivity.
Qed.

(** The moon turns once per scroll event and not at all per frame. *)
Lemma moon_rotation_run (es : list (event A)) (w : world A C) :
  moon_rotation (run' es w) =
    Nat.iter (length (filter is_scroll es)) moon_bump (moon_rotation w).
Proof.
  revert w; induction es as [|e es IH]; intro w; [reflexivity|].
  rewrite run_cons, IH. destruct e as [|top]; simpl filter; simpl length.
  - rewrite exec_frame, animate_no_faults. reflexivity.
  - rewrite Nat.iter_succ_r. reflexivity.
Qed.

(** No event moves the moon. *)
Lemma moon_position_run (es : list (event A)) (w : world A C) :
  moon_position (run' es w) = moon_position w.
Proof.
  revert w; induction es as [|e es IH]; intro w; [reflexivity|].
  rewrite run_cons, IH. destruct e as [|top]; [|reflexivity].
  rewrite exec_frame, animate_no_faults. reflexivity.
Qed.





(** Component-wise reading of repeated bumps. *)
Lemma torus_bump_iter (n : nat) (r : Euler.t A) :
  Nat.iter n torus_bump r =
    Euler.make (Nat.iter n (fun a => add a (lit (1 # 100))) (Euler.x r))
               (Nat.iter n (fun a => add a (lit (1 # 100))) (Euler.y r))
               (Nat.iter n (fun a => add a (lit (1 # 100))) (Euler.z r)).
Proof.
  induction n as [|n IH]; simpl; [destruct r; reflexivity|].
  rewrite IH. reflexivity.
Qed.

Lemma moon_bump_iter (n : nat) (r : Euler.t A) :
  Nat.iter n moon_bump r =
    Euler.make (Nat.iter n (fun a => add a (lit (5 # 100))) (Euler.x r))
               (Nat.iter n (fun a => add a (lit (75 # 1000))) (Euler.y r))
               (Nat.iter n (fun a => add a (lit (5 # 100))) (Euler.z r)).
Proof.
  induction n as [|n IH]; simpl; [destruct r; reflexivity|].
  rewrite IH. reflexivity.
Qed.





(** The frame loop: with [animate] as the one pending request, a repaint
    runs it once and leaves it pending again; so it is after start-up and
    after every later repaint. *)
Lemma repaint_one_request (w : world A C) :
  frame_requests w = [Animate] ->
  repaint controls_update w =
    exec (animate controls_update no_faults) (with_frame_requests [] w) /\
  frame_requests (repaint controls_update w) = [Animate].
Proof.
  intro Hq. unfold repaint. rewrite Hq. simpl fold_left. split; [reflexivity|].
  unfold exec. rewrite animate_no_faults. reflexivity.
Qed.

Lemma repaints_keep_one_request (n : nat) (c0 : C) :
  frame_requests
    (Nat.iter n (repaint controls_update)
       (exec (startup controls_update) (constructed c0))) = [Animate].
Proof.
  induction n as [|n IH].
  - apply startup_requests.
  - simpl Nat.iter. apply repaint_one_request. exact IH.
Qed.

(** C7: the moon's position is written at start-up only.  The statement
    [moon.position.setZ = (30)] stores the number in the property [setZ]
    and leaves the three coordinates as they were, so after start-up the
    moon is at [(2, 0, 0)], its [z] still the constructor's [0]; no call of
    [animate], whatever throws in it, no call of [moveCamera], and hence no
    run of frames and scroll events changes any of the three coordinates. *)
Theorem moon_position_never_moves :
  (forall (a : A) (w : world A C),
      moon_position (exec (moon_position_setZ_assign a) w) = moon_position w /\
      moon_position_setZ (exec (moon_position_setZ_assign a) w) = Some a) /\
  (forall c0 : C,
      let w := exec (startup controls_update) (constructed c0) in
      moon_position w = Vector3.make (lit 2) (lit 0) (lit 0) /\
      moon_position_setZ w = Some (lit 30)) /\
  (forall (throws : point -> bool) (w : world A C),
      moon_position (exec (animate controls_update throws) w) = moon_position w) /\
  (forall (top : A) (w : world A C),
      moon_position (exec (moveCamera top) w) = moon_position w) /\
  (forall (es : list (event A)) (w : world A C),
      moon_position (run' es w) = moon_position w).
Proof.
  repeat apply conj.
  - intros a w. split; reflexivity.
  - apply startup_moon.
  - intros throws w. apply animate_moon.
  - intros top w. reflexivity.
  - apply moon_position_run.
Qed.


(** C3: after any scroll event the camera's [y] is the offset sampled at
    that event times [-0.0002], whatever events came before it; over a
    sequence of scroll events the successive values of [y] are the
    successive offsets, each times [-0.0002]. *)
Theorem camera_y_follows_latest_scroll :
  (forall (es : list (event A)) (top : A) (w : world A C),
      Vector3.y (camera_position (run' (es ++ [Scroll top]) w)) =
        mul top (neg (lit (2 # 10000)))) /\
  (forall (ts : list A) (w : world A C),
      camera_y_trace controls_update (map Scroll ts) w =
        map (fun t => mul t (neg (lit (2 # 10000)))) ts).
Proof.
  split.
  - intros es top w. rewrite run_app. reflexivity.
  - intro ts. induction ts as [|t ts IH]; intro w; [reflexivity|].
    simpl map. simpl camera_y_trace. rewrite IH. reflexivity.
Qed.


End Runs.

(** ** Arithmetic of repeated increments *)







(** ** The torus (animate, lines 155-157) *)







(** ** The moon (moveCamera, lines 133-135) *)






(** ** The camera (moveCamera, line 140) *)

(** C5: over the scroll offsets [0, -100, -250] the camera's [y] is, after
    each event in turn, [0], [0.02] and [0.05]: exactly so in rational
    arithmetic, and in binary64 the three values are [-0], and the binary64
    numbers nearest to [0.02] and to [0.05], each within [1e-17] of the
    exact value. *)
Theorem camera_y_scroll_scenario :
  (forall (C : Type) (cu : C -> Vector3.t Q -> C * Vector3.t Q) (w : world Q C),
      Forall2 Qeq (camera_y_trace cu (map Scroll scenario_offsets) w)
        [0; 2 # 100; 5 # 100]) /\
  (forall (C : Type) (cu : C -> Vector3.t float -> C * Vector3.t float)
          (w : world float C),
      let ys := camera_y_trace cu (map Scroll scenario_offsets) w in
      ys = [(-0)%float; 0x1.47ae147ae147bp-6%float; 0x1.999999999999ap-5%float] /\
      Forall2 (fun y q => Binary64.within (1 # 100000000000000000) y q = true)
        ys [0; 2 # 100; 5 # 100]).
Proof.
  split.
  - intros C cu w. simpl camera_y_trace.
    repeat constructor; vm_compute; reflexivity.
  - intros C cu w ys. subst ys. simpl camera_y_trace. split.
    + vm_compute. reflexivity.
    + repeat constructor; vm_compute; reflexivity.
Qed.




(** * Further properties of the code *)

Local Open Scope nat_scope.

(** ** animate when statements throw (lines 147-167) *)

Section Throws.

Context {A : Type} `{Number A} {C : Type}.
Variable controls_update : C -> Vector3.t A -> C * Vector3.t A.

Lemma filter_length_app {X : Type} (f : X -> bool) (l l' : list X) :
  length (filter f (l ++ l')) = length (filter f l) + length (filter f l').
Proof. rewrite filter_app, length_app. reflexivity. Qed.


(** X1: a call of [animate] runs its statements in source order up to the
    first one that throws and no further.  With [k] the number of
    statements after the frame request that ran, the call returns exactly
    when [k = 5]; the torus's x, y and z angles have been increased exactly
    when [k] is at least 1, 2 and 3; the controls have been updated exactly
    when [k >= 4]; a render has been made exactly when [k = 5]; and the
    next frame has been requested once in every case.  So a throw can leave
    the torus with some of its angles turned and others not. *)
Theorem animate_runs_up_to_first_throw (throws : point -> bool) (w : world A C) :
  let k := reached throws points in
  let r := torus_rotation w in
  let d := lit (1 # 100) in
  let w' := exec (animate controls_update throws) w in
  (snd (animate controls_update throws w) = Returned tt <-> k = 5) /\
  torus_rotation w' =
    Euler.make (if 1 <=? k then add (Euler.x r) d else Euler.x r)
               (if 2 <=? k then add (Euler.y r) d else Euler.y r)
               (if 3 <=? k then add (Euler.z r) d else Euler.z r) /\
  (controls w', camera_position w') =
    (if 4 <=? k then controls_update (controls w) (camera_position w)
     else (controls w, camera_position w)) /\
  frame_requests w' = frame_requests w ++ [Animate] /\
  length (filter is_request (calls w')) = S (length (filter is_request (calls w))) /\
  length (filter is_render (calls w')) =
    length (filter is_render (calls w)) + (if 5 <=? k then 1 else 0).
Proof.
  unfold points, reached.
  run_animate controls_update throws w;
    (split; [split; intro Hk; solve [reflexivity | discriminate Hk]|]);
    rewrite ?filter_length_app; simpl;
    destruct (torus_rotation w); simpl;
    repeat split; lia.
Qed.

End Throws.

(** ** The frame loop (lines 147-170) *)

Section FrameLoop.

Context {A : Type} `{Number A} {C : Type}.
Variable controls_update : C -> Vector3.t A -> C * Vector3.t A.

Abbreviation frame_step throws :=
  (fun (w : world A C) (cb : callback) =>
     match cb with Animate => exec (animate controls_update throws) w end).











End FrameLoop.

(** ** Frames and scroll events together (lines 129-167) *)

Section Interleavings.

Context {A : Type} `{Number A} {C : Type}.
Variable controls_update : C -> Vector3.t A -> C * Vector3.t A.

Abbreviation run'' := (run controls_update).


(** X6: what a scroll event changes is drawn by the next frame.  The
    scroll handler itself draws nothing; the frame that follows renders, as
    its last call, the moon turned by this event, the torus turned by this
    frame, and the camera the controls made of the position the event
    set. *)
Theorem scroll_is_drawn_by_next_frame
    (es : list (event A)) (top : A) (w : world A C) :
  let w0 := run'' es w in
  let p := Vector3.set_y (camera_position w0) (mul top (neg (lit (2 # 10000)))) in
  calls (run'' (es ++ [Scroll top]) w) = calls w0 /\
  exists earlier,
    calls (run'' (es ++ [Scroll top; Frame]) w) =
      earlier ++
        [Render (View (snd (controls_update (controls w0) p))
                      (torus_bump (torus_rotation w0))
                      (moon_bump (moon_rotation w0))
                      (moon_position w0))].
Proof.
  cbv zeta. split.
  - rewrite run_app. reflexivity.
  - rewrite run_app. cbn [run fold_left].
    rewrite exec_frame, animate_no_faults. cbn [fst calls].
    eexists (_ ++ [_; _]). rewrite <- app_assoc. reflexivity.
Qed.

Lemma torus_bump_symmetric (n : nat) (r : Euler.t A) :
  Euler.x r = Euler.y r -> Euler.y r = Euler.z r ->
  Euler.x (Nat.iter n torus_bump r) = Euler.y (Nat.iter n torus_bump r) /\
  Euler.y (Nat.iter n torus_bump r) = Euler.z (Nat.iter n torus_bump r).
Proof.
  intros Hxy Hyz. rewrite torus_bump_iter. cbn [Euler.x Euler.y Euler.z].
  rewrite Hxy, Hyz. split; reflexivity.
Qed.

Lemma moon_bump_symmetric (n : nat) (r : Euler.t A) :
  Euler.x r = Euler.z r ->
  Euler.x (Nat.iter n moon_bump r) = Euler.z (Nat.iter n moon_bump r).
Proof.
  intro Hxz. rewrite moon_bump_iter. cbn [Euler.x Euler.z].
  rewrite Hxz. reflexivity.
Qed.

(** X7: the rotations keep their symmetry.  [animate] adds the same
    number to the three torus angles and [moveCamera] the same number to the
    moon's x and z angles, so, in the arithmetic of the program as in exact
    arithmetic, a torus whose three angles are equal keeps them equal through
    every run of frames and scroll events, and a moon whose x and z angles
    are equal keeps them equal. *)
Theorem rotations_stay_symmetric (es : list (event A)) (w : world A C) :
  (Euler.x (torus_rotation w) = Euler.y (torus_rotation w) ->
   Euler.y (torus_rotation w) = Euler.z (torus_rotation w) ->
   let r := torus_rotation (run'' es w) in
   Euler.x r = Euler.y r /\ Euler.y r = Euler.z r) /\
  (Euler.x (moon_rotation w) = Euler.z (moon_rotation w) ->
   let r := moon_rotation (run'' es w) in
   Euler.x r = Euler.z r).
Proof.
  split.
  - intros Hxy Hyz. cbv zeta. rewrite torus_rotation_run.
    apply torus_bump_symmetric; assumption.
  - intro Hxz. cbv zeta. rewrite moon_rotation_run.
    apply moon_bump_symmetric; assumption.
Qed.


End Interleavings.

Lemma rotations_stay_symmetric_witness :
  let w := constructed (A := float) tt in
  let es := [Frame; Scroll 3%float; Frame; Scroll (-40)%float] in
  (Euler.x (torus_rotation w) = Euler.y (torus_rotation w) /\
   Euler.y (torus_rotation w) = Euler.z (torus_rotation w) /\
   Euler.x (torus_rotation (run still es w)) = Euler.y (torus_rotation (run still es w))) /\
  (Euler.x (moon_rotation w) = Euler.z (moon_rotation w) /\
   Euler.x (moon_rotation (run still es w)) = Euler.z (moon_rotation (run still es w))).
Proof.
  split.
  - split; [reflexivity|]. split; [reflexivity|].
    exact (proj1 (proj1 (rotations_stay_symmetric still
                           [Frame; Scroll 3%float; Frame; Scroll (-40)%float]
                           (constructed (A := float) tt)) eq_refl eq_refl)).
  - split; [reflexivity|].
    exact (proj2 (rotations_stay_symmetric still
                    [Frame; Scroll 3%float; Frame; Scroll (-40)%float]
                    (constructed (A := float) tt)) eq_refl).
Defined.


(** ** The stars and the scene (lines 7-125) *)

Section Stars.

Context {A : Type} `{Number A} {C : Type}.
Variable controls_update : C -> Vector3.t A -> C * Vector3.t A.
Variable randFloatSpread : A -> nat -> A.

Abbreviation addStar' := (addStar (C := C) randFloatSpread).
Abbreviation star_at' := (star_at randFloatSpread).

(** One call of [addStar]: three calls of [randFloatSpread(200)], for x, y
    and z in this order, and one more child. *)
Lemma addStar_returns (pg : page A C) :
  let d := random_calls pg in
  addStar' pg =
    (Page (core pg)
       (children pg ++
          [Star (Vector3.make (randFloatSpread (lit 200) d)
                              (randFloatSpread (lit 200) (S d))
                              (randFloatSpread (lit 200) (S (S d))))])
       (S (S (S d))) (onscroll pg),
     Returned tt).
Proof. reflexivity. Qed.

(** [forEach] over holes calls nothing: it is [fill()] that makes
    [Array(n)] worth iterating. *)
Lemma forEach_holes {St : Type} (n i : nat)
    (f : unit -> nat -> St -> St * outcome unit) (s : St) :
  JsArray.forEach_from i (JsArray.create n) f s = (s, Returned tt).
Proof.
  revert i. induction n as [|n IH]; intro i; [reflexivity|].
  simpl. apply IH.
Qed.

Lemma star_at_shift (d i : nat) : star_at' d (S i) = star_at' (S (S (S d))) i.
Proof.
  unfold star_at.
  replace (d + 3 * S i) with (S (S (S d)) + 3 * i) by lia. reflexivity.
Qed.

Lemma star_at_first (d : nat) :
  star_at' d 0 =
    Star (Vector3.make (randFloatSpread (lit 200) d)
                       (randFloatSpread (lit 200) (S d))
                       (randFloatSpread (lit 200) (S (S d)))).
Proof.
  unfold star_at.
  replace (d + 3 * 0) with d by lia.
  replace (d + 1) with (S d) by lia.
  replace (d + 2) with (S (S d)) by lia.
  reflexivity.
Qed.

Lemma forEach_addStar (n i : nat) (pg : page A C) :
  JsArray.forEach_from i (JsArray.fill (JsArray.create n) tt)
    (fun _ _ => addStar') pg =
    (Page (core pg)
       (children pg ++ map (star_at' (random_calls pg)) (seq 0 n))
       (random_calls pg + 3 * n) (onscroll pg),
     Returned tt).
Proof.
  revert i pg. induction n as [|n IH]; intros i pg.
  - simpl. rewrite app_nil_r, Nat.add_0_r. destruct pg; reflexivity.
  - change (JsArray.fill (JsArray.create (S n)) tt)
      with (Some tt :: JsArray.fill (JsArray.create n) tt).
    cbn [JsArray.forEach_from]. rewrite addStar_returns. cbv zeta.
    rewrite IH. cbn [core children random_calls onscroll].
    rewrite <- app_assoc. cbn [app seq map].
    rewrite <- seq_shift, map_map.
    rewrite (map_ext _ _ (star_at_shift (random_calls pg))).
    rewrite star_at_first.
    replace (random_calls pg + 3 * S n)
      with (S (S (S (random_calls pg))) + 3 * n) by lia.
    reflexivity.
Qed.


(** X9: the star loop.  [Array(n).fill().forEach(addStar)] returns after
    adding exactly [n] stars behind the children the scene already has, in
    the order of the calls; it makes [3 * n] calls of
    [randFloatSpread(200)], and the [i]-th star takes the results of calls
    [3i], [3i + 1] and [3i + 2] of the loop as its x, y and z; nothing else
    on the page changes. *)
Theorem add_stars_adds_n_stars (n : nat) (pg : page A C) :
  add_stars randFloatSpread n pg =
    (Page (core pg)
       (children pg ++ map (star_at' (random_calls pg)) (seq 0 n))
       (random_calls pg + 3 * n) (onscroll pg),
     Returned tt).
Proof. unfold add_stars, JsArray.forEach. apply forEach_addStar. Qed.


End Stars.
